(** * midtermcalc: operation dispatch, observers and CSV history

    A shallow embedding of [app/main.py].  Python floats are IEEE-754
    binary64 values, so operands and results are Rocq's primitive floats and
    [+], [-], [*], [/] are the very same operations.  Python exceptions are a
    value of type [exn]; code that mutates the calculator or the history file
    runs in a state-and-exception monad [Py] in which the state reached so far
    survives a raised exception, as it does in Python. *)

From Stdlib Require Import String Ascii List Bool Arith Lia PrimFloat.
Import ListNotations.

Open Scope string_scope.
Open Scope list_scope.

(* ------------------------------------------------------------------ *)
(** ** Exceptions and fallible values *)

(** The exceptions the program can raise.  [EmptyDataError] is pandas' error
    for a file without columns; it derives from [ValueError].  [OSError]
    stands for the errors of opening a file ([PermissionError],
    [FileNotFoundError], ...), which derive from it. *)
Inductive exn : Type :=
| ValueError (msg : string)
| AttributeError (msg : string)
| EmptyDataError (msg : string)
| OSError (filename : string).

(** [except ValueError] at the bottom of the REPL loop. *)
Definition is_ValueError (e : exn) : bool :=
  match e with
  | ValueError _ | EmptyDataError _ => true
  | AttributeError _ | OSError _ => false
  end.

Inductive result (A : Type) : Type :=
| Ok (a : A)
| Raise (e : exn).
Arguments Ok {A} a.
Arguments Raise {A} e.

Definition rbind {A B : Type} (r : result A) (k : A -> result B) : result B :=
  match r with
  | Ok a => k a
  | Raise e => Raise e
  end.

Declare Scope result_scope.
Delimit Scope result_scope with result.
Notation "x <- r ;; k" := (rbind r (fun x => k))
  (at level 61, r at next level, right associativity) : result_scope.
Notation "r ;; k" := (rbind r (fun _ => k))
  (at level 61, right associativity) : result_scope.

Fixpoint mapM {A B : Type} (f : A -> result B) (l : list A) : result (list B) :=
  match l with
  | [] => Ok []
  | x :: rest =>
      (y <- f x ;; ys <- mapM f rest ;; Ok (y :: ys))%result
  end.

(* ------------------------------------------------------------------ *)
(** ** Operations *)

(** The four concrete subclasses of [TemplateOperation]. *)
Inductive TemplateOperation : Type :=
| Addition
| Subtraction
| Multiplication
| Division.

(** [op.__class__.__name__] *)
Definition class_name (op : TemplateOperation) : string :=
  match op with
  | Addition => "Addition"
  | Subtraction => "Subtraction"
  | Multiplication => "Multiplication"
  | Division => "Division"
  end.

(** [validate_inputs]: the [isinstance(_, (int, float))] test.  It rejects
    operands that are not numbers.  Every operand of this model is a float:
    the REPL converts its tokens with [float], and the files covered hold
    float cells (see [Row]); on floats, NaN and infinities included, the test
    passes. *)
Definition validate_inputs (a b : float) : result unit := Ok tt.

Definition execute (op : TemplateOperation) (a b : float) : result float :=
  match op with
  | Addition => Ok (a + b)%float
  | Subtraction => Ok (a - b)%float
  | Multiplication => Ok (a * b)%float
  | Division =>
      if (b =? 0)%float
      then Raise (ValueError "Division by zero is not allowed.")
      else Ok (a / b)%float
  end.

(** The template method: validate, execute, log, return. *)
Definition calculate (op : TemplateOperation) (a b : float) : result float :=
  (validate_inputs a b ;;
   result <- execute op a b ;;
   Ok result)%result.

(** [str.lower] on the ASCII range.  No character outside that range maps to
    a letter of the four registry keys, so resolution agrees with Python's. *)
Definition lower_ascii (c : ascii) : ascii :=
  let n := nat_of_ascii c in
  if ((65 <=? n)%nat && (n <=? 90)%nat)%bool then ascii_of_nat (n + 32) else c.

Fixpoint lower (s : string) : string :=
  match s with
  | EmptyString => EmptyString
  | String c rest => String (lower_ascii c) (lower rest)
  end.

Definition operations_map : list (string * TemplateOperation) :=
  [ ("add", Addition);
    ("subtract", Subtraction);
    ("multiply", Multiplication);
    ("divide", Division) ].

(** [dict.get]: the value under [key], or [None]. *)
Fixpoint get {V : Type} (d : list (string * V)) (key : string) : option V :=
  match d with
  | [] => None
  | (k, v) :: rest => if String.eqb k key then Some v else get rest key
  end.

(** [OperationFactory.create_operation] *)
Definition create_operation (operation : string) : option TemplateOperation :=
  get operations_map (lower operation).

(* ------------------------------------------------------------------ *)
(** ** Calculation records *)

(** The dataclass.  [operation] is [None] when the factory did not resolve
    the name the record was built from. *)
Record Calculation : Type := mkCalculation {
  operation : option TemplateOperation;
  operand1 : float;
  operand2 : float
}.

Definition NoneType_calculate : exn :=
  AttributeError "'NoneType' object has no attribute 'calculate'".

(** [calc.operation.calculate(calc.operand1, calc.operand2)]: the result of a
    record is never stored, it is recomputed by this call. *)
Definition recompute (c : Calculation) : result float :=
  match operation c with
  | None => Raise NoneType_calculate
  | Some op => calculate op (operand1 c) (operand2 c)
  end.

(** The values interpolated by the f-string of [Calculation.__str__]. *)
Record CalculationText : Type := mkText {
  text_operand1 : float;
  text_name : string;
  text_operand2 : float;
  text_result : float
}.

(** [Calculation.__str__]: recompute first, then format. *)
Definition Calculation_str (c : Calculation) : result CalculationText :=
  (result <- recompute c ;;
   Ok {| text_operand1 := operand1 c;
         text_name := match operation c with
                      | Some op => lower (class_name op)
                      | None => "nonetype"
                      end;
         text_operand2 := operand2 c;
         text_result := result |})%result.

(* ------------------------------------------------------------------ *)
(** ** Observers *)

(** An observer is any object with an [update] method.  [update] may return
    normally or raise; [observer_id] tells subscribed observers apart. *)
Record Observer : Type := mkObserver {
  observer_id : nat;
  update : Calculation -> result unit
}.

(** [HistoryObserver.update] logs an f-string holding the calculation, which
    formats it with [Calculation.__str__] before anything is logged. *)
Definition HistoryObserver (id : nat) : Observer :=
  {| observer_id := id;
     update := fun calculation =>
       (Calculation_str calculation ;; Ok tt)%result |}.

(** One call of [observer.update(calculation)], as seen from outside. *)
Record Notification : Type := mkNotification {
  notified_observer : nat;
  notified_with : Calculation
}.

(* ------------------------------------------------------------------ *)
(** ** The history file *)

(** A cell of the [Operation] column as [read_csv] hands it over: text, or
    something that is not text, because pandas reads a cell such as NA, null
    or the empty cell as a missing value (a float) and a column of numbers or
    booleans as such.  [type_name] is Python's name for the type of such a
    cell ("float", "int", "bool"). *)
Inductive NameCell : Type :=
| Text (s : string)
| NotText (type_name : string).

Coercion Text : string >-> NameCell.

(** One row of the CSV file, with the columns [save_history] writes.  The
    operand and result cells are floats, as they are in every file the
    program writes and reads back: it writes floats, and [read_csv] reads
    them as floats.  A file edited so that an operand column holds integers
    or text is outside this model. *)
Record Row : Type := mkRow {
  Operation : NameCell;
  Operand1 : float;
  Operand2 : float;
  Result : float
}.

(** The history file is kept as the table it spells out.  A frame built from
    an empty list of dicts has no columns at all, and [to_csv] then writes a
    blank header line and nothing else: [NoColumns].  Otherwise the file has
    the four-column header and one line per row: [Columns rows]. *)
Inductive DataFrame : Type :=
| NoColumns
| Columns (rows : list Row).

(** [pd.DataFrame(history_data)] *)
Definition pd_DataFrame (history_data : list Row) : DataFrame :=
  match history_data with
  | [] => NoColumns
  | _ :: _ => Columns history_data
  end.

(** [pd.read_csv]: a file without a header line is refused. *)
Definition read_csv (file : DataFrame) : result (list Row) :=
  match file with
  | NoColumns => Raise (EmptyDataError "No columns to parse from file")
  | Columns rows => Ok rows
  end.

(** The dict [save_history] builds for one record, entries evaluated left to
    right: the class name first, the recomputed result last. *)
Definition history_row (calc : Calculation) : result Row :=
  let name := match operation calc with
              | Some op => class_name op
              | None => "NoneType"
              end in
  (result <- recompute calc ;;
   Ok {| Operation := name;
         Operand1 := operand1 calc;
         Operand2 := operand2 calc;
         Result := result |})%result.

(** [row["Operation"].lower()]: a method of text only. *)
Definition cell_lower (cell : NameCell) : result string :=
  match cell with
  | Text s => Ok (lower s)
  | NotText type_name =>
      Raise (AttributeError
               ("'" ++ type_name ++ "' object has no attribute 'lower'"))
  end.

(** The record [load_history] builds from one row; [Result] is not read.
    A name cell that is not text raises before any record is built. *)
Definition row_calculation (row : Row) : result Calculation :=
  (name <- cell_lower (Operation row) ;;
   Ok {| operation := create_operation name;
         operand1 := Operand1 row;
         operand2 := Operand2 row |})%result.

(* ------------------------------------------------------------------ *)
(** ** Program state *)

Record CalculatorWithObserver : Type := mkCalculator {
  history_file : string;
  _history : list Calculation;
  _observers : list Observer
}.

(** The calculator object and what surrounds it: the file at [history_file]
    ([None] while [os.path.exists] is false), the calls of [update] made so
    far, oldest first, and whether the file can be opened for writing (it
    cannot when the path lies in a missing or read-only directory, or the
    file is read-only). *)
Record World : Type := mkWorld {
  calc : CalculatorWithObserver;
  durable : option DataFrame;
  notifications : list Notification;
  writable : bool
}.

(** State and exceptions.  A raised exception keeps the state reached. *)
Definition Py (A : Type) : Type := World -> result A * World.

Definition ret {A : Type} (a : A) : Py A := fun w => (Ok a, w).

Definition bind {A B : Type} (m : Py A) (k : A -> Py B) : Py B :=
  fun w =>
    match m w with
    | (Ok a, w') => k a w'
    | (Raise e, w') => (Raise e, w')
    end.

(** A computation that touches no state. *)
Definition lift {A : Type} (r : result A) : Py A := fun w => (r, w).

Declare Scope py_scope.
Delimit Scope py_scope with py.
Notation "x <- m ;; k" := (bind m (fun x => k))
  (at level 61, m at next level, right associativity) : py_scope.
Notation "m ;; k" := (bind m (fun _ => k))
  (at level 61, right associativity) : py_scope.

Definition set_history (h : list Calculation) (w : World) : World :=
  {| calc := {| history_file := history_file (calc w);
                _history := h;
                _observers := _observers (calc w) |};
     durable := durable w;
     notifications := notifications w;
     writable := writable w |}.

Definition set_observers (obs : list Observer) (w : World) : World :=
  {| calc := {| history_file := history_file (calc w);
                _history := _history (calc w);
                _observers := obs |};
     durable := durable w;
     notifications := notifications w;
     writable := writable w |}.

Definition set_durable (file : option DataFrame) (w : World) : World :=
  {| calc := calc w;
     durable := file;
     notifications := notifications w;
     writable := writable w |}.

(** The same world on a file that can, or cannot, be opened for writing. *)
Definition set_writable (can_write : bool) (w : World) : World :=
  {| calc := calc w;
     durable := durable w;
     notifications := notifications w;
     writable := can_write |}.

Definition add_notification (n : Notification) (w : World) : World :=
  {| calc := calc w;
     durable := durable w;
     notifications := notifications w ++ [n];
     writable := writable w |}.

(* ------------------------------------------------------------------ *)
(** ** CalculatorWithObserver *)

(** [self._history.append(calculation)] *)
Definition history_append (calculation : Calculation) : Py unit :=
  fun w => (Ok tt, set_history (_history (calc w) ++ [calculation]) w).

(** [self._history.clear()] *)
Definition history_clear : Py unit :=
  fun w => (Ok tt, set_history [] w).

Definition add_observer (observer : Observer) : Py unit :=
  fun w => (Ok tt, set_observers (_observers (calc w) ++ [observer]) w).

(** The body of the loop of [notify_observers], over the observers left:
    call [update], then format the calculation once more for the debug log. *)
Fixpoint notify_each (observers : list Observer) (calculation : Calculation)
  : Py unit :=
  match observers with
  | [] => ret tt
  | observer :: rest =>
      ((fun w =>
          (update observer calculation,
           add_notification
             {| notified_observer := observer_id observer;
                notified_with := calculation |} w)) ;;
       lift (Calculation_str calculation) ;;
       notify_each rest calculation)%py
  end.

Definition notify_observers (calculation : Calculation) : Py unit :=
  fun w => notify_each (_observers (calc w)) calculation w.

(** [save_history]: every record is recomputed while the list of dicts is
    built, so an exception there leaves the file as it was; then [to_csv]
    opens the file and rewrites it whole, or raises when the file cannot be
    opened for writing, which leaves it as it was too. *)
Definition save_history : Py unit :=
  fun w =>
    match mapM history_row (_history (calc w)) with
    | Raise e => (Raise e, w)
    | Ok history_data =>
        if writable w
        then (Ok tt, set_durable (Some (pd_DataFrame history_data)) w)
        else (Raise (OSError (history_file (calc w))), w)
    end.

(** [load_history]: one record per row of the file, built in a list
    comprehension that an exception leaves as a whole, or the empty list
    when there is no file.  No attribute of the calculator is assigned
    here. *)
Definition load_history : Py (list Calculation) :=
  fun w =>
    match durable w with
    | Some file =>
        match (df <- read_csv file ;; mapM row_calculation df)%result with
        | Raise e => (Raise e, w)
        | Ok history => (Ok history, w)
        end
    | None => (Ok [], w)
    end.

(** [perform_operation], statement by statement: append, notify, format for
    the debug log, save, compute the value returned. *)
Definition perform_operation (op : TemplateOperation) (a b : float)
  : Py float :=
  let calculation :=
    {| operation := Some op; operand1 := a; operand2 := b |} in
  (history_append calculation ;;
   notify_observers calculation ;;
   lift (Calculation_str calculation) ;;
   save_history ;;
   lift (calculate op a b))%py.

Definition get_history : Py (list Calculation) :=
  fun w => (Ok (_history (calc w)), w).

Definition load_history_manually : Py (list Calculation) := load_history.

Definition save_history_manually : Py unit := save_history.

(** [CalculatorWithObserver(history_file)] on a machine whose file at that
    path is [file] and can be written or not: the history is loaded, no
    observer is subscribed. *)
Definition init (path : string) (file : option DataFrame) (can_write : bool)
  : result World :=
  let blank :=
    {| calc := {| history_file := path; _history := []; _observers := [] |};
       durable := file;
       notifications := [];
       writable := can_write |} in
  match load_history blank with
  | (Ok history, w) => Ok (set_history history w)
  | (Raise e, _) => Raise e
  end.

(* ------------------------------------------------------------------ *)
(** ** The REPL *)

(** One line of user input, after [split] and [float] did their parsing. *)
Inductive Input : Type :=
| Help
| Exit
| List
| Clear
| SaveHistory
| LoadHistory
| Operate (operation_str : string) (num1 num2 : float)
| Unparsable.

(** What one turn of the loop prints. *)
Inductive Printed : Type :=
| HelpText
| Exiting
| NoCalculations
| Items (items : list CalculationText)
| HistoryCleared
| ManuallySaved (path : string)
| ManuallyLoaded (path : string)
| ResultIs (result : float)
| UnknownOperation (operation_str : string)
| InvalidInput.

(** How one turn ends: the loop goes on, the loop is left, or an exception
    no handler catches ends the process. *)
Inductive Outcome : Type :=
| Continue (out : Printed)
| Break (out : Printed)
| Uncaught (e : exn).

(** A branch of the loop outside the [try]: every exception escapes. *)
Definition unguarded {A : Type} (m : Py A) (out : A -> World -> Printed)
  (w : World) : Outcome * World :=
  match m w with
  | (Ok a, w') => (Continue (out a w'), w')
  | (Raise e, w') => (Uncaught e, w')
  end.

(** The [try] block: the name is resolved, then the operation performed;
    [except ValueError] reports invalid input. *)
Definition perform (operation_str : string) (num1 num2 : float) (w : World)
  : Outcome * World :=
  match create_operation operation_str with
  | Some op =>
      match perform_operation op num1 num2 w with
      | (Ok result, w') => (Continue (ResultIs result), w')
      | (Raise e, w') =>
          if is_ValueError e
          then (Continue InvalidInput, w')
          else (Uncaught e, w')
      end
  | None => (Continue (UnknownOperation operation_str), w)
  end.

Definition repl_step (user_input : Input) (w : World) : Outcome * World :=
  match user_input with
  | Help => (Continue HelpText, w)
  | Exit => (Break Exiting, w)
  | List =>
      match _history (calc w) with
      | [] => (Continue NoCalculations, w)
      | history =>
          unguarded (lift (mapM Calculation_str history))
            (fun items _ => Items items) w
      end
  | Clear =>
      unguarded (history_clear ;; save_history)%py
        (fun _ _ => HistoryCleared) w
  | SaveHistory =>
      unguarded save_history_manually
        (fun _ w' => ManuallySaved (history_file (calc w'))) w
  | LoadHistory =>
      unguarded load_history_manually
        (fun _ w' => ManuallyLoaded (history_file (calc w'))) w
  | Operate operation_str num1 num2 => perform operation_str num1 num2 w
  | Unparsable => (Continue InvalidInput, w)
  end.

(** The start of [calculator()]: build the calculator, subscribe one
    [HistoryObserver]. *)
Definition startup (path : string) (file : option DataFrame)
  (can_write : bool) : result World :=
  match init path file can_write with
  | Ok w => Ok (snd (add_observer (HistoryObserver 0) w))
  | Raise e => Raise e
  end.

(** A first run: no history file yet, in a directory that can be written. *)
Definition fresh : World :=
  {| calc := {| history_file := "calculator_history.csv";
                _history := [];
                _observers := [HistoryObserver 0] |};
     durable := None;
     notifications := [];
     writable := true |}.

(* ------------------------------------------------------------------ *)
(** ** The bytes of the history file *)

Section CsvText.

(** How pandas prints one float cell. *)
Variable float_repr : float -> string.

Definition newline : string := String (ascii_of_nat 10) EmptyString.

(** The text of a name cell.  The program writes text cells only; a missing
    value is an empty cell. *)
Definition cell_text (cell : NameCell) : string :=
  match cell with
  | Text s => s
  | NotText _ => EmptyString
  end.

Definition csv_line (row : Row) : string :=
  (cell_text (Operation row) ++ "," ++ float_repr (Operand1 row) ++ ","
     ++ float_repr (Operand2 row) ++ "," ++ float_repr (Result row)
     ++ newline)%string.

(** The text [to_csv(index=False)] writes for a frame. *)
Definition to_csv (df : DataFrame) : string :=
  match df with
  | NoColumns => newline
  | Columns rows =>
      ("Operation,Operand1,Operand2,Result" ++ newline
         ++ String.concat EmptyString (map csv_line rows))%string
  end.

(** The bytes on disk, if the file exists. *)
Definition durable_bytes (w : World) : option string :=
  option_map to_csv (durable w).

End CsvText.

(* ------------------------------------------------------------------ *)
(** ** Predicates used by the statements *)

(** [recompute] returns a value on this record. *)
Definition recomputes (c : Calculation) : bool :=
  match recompute c with
  | Ok _ => true
  | Raise _ => false
  end.

(** [update] of this observer returns normally on this record. *)
Definition accepts (c : Calculation) (o : Observer) : bool :=
  match update o c with
  | Ok _ => true
  | Raise _ => false
  end.

(** The notifications a full round over [observers] adds. *)
Definition round (observers : list Observer) (c : Calculation)
  : list Notification :=
  map (fun o => mkNotification (observer_id o) c) observers.


(** A calculator holding [history], one [HistoryObserver] subscribed, with
    [file] on disk, in a directory that can be written. *)
Definition holding (history : list Calculation) (file : option DataFrame)
  : World :=
  {| calc := {| history_file := "calculator_history.csv";
                _history := history;
                _observers := [HistoryObserver 0] |};
     durable := file;
     notifications := [];
     writable := true |}.

(** An observer that raises on no record whose result can be computed. *)
Definition well_behaved (o : Observer) : Prop :=
  forall c, recomputes c = true -> accepts c o = true.

(** An observer whose [update] raises. *)
Definition failing_observer (id : nat) : Observer :=
  {| observer_id := id;
     update := fun _ => Raise (ValueError "observer failed") |}.

(** The observer contract as the claim words it, for a calculator with the
    two observers subscribed in this order: one operation invokes both, once
    each and in order, and no observer failure aborts the operation. *)
Definition observer_contract (o1 o2 : Observer) (op : TemplateOperation)
  (a b : float) : Prop :=
  let w := {| calc := {| history_file := "calculator_history.csv";
                         _history := [];
                         _observers := [o1; o2] |};
              durable := None;
              notifications := [];
              writable := true |} in
  let c := mkCalculation (Some op) a b in
  notifications (snd (perform_operation op a b w))
  = [mkNotification (observer_id o1) c; mkNotification (observer_id o2) c]
  /\ forall r, calculate op a b = Ok r ->
               fst (perform_operation op a b w) = Ok r.

(** Every stored record recomputes, no observer raises on a record that
    recomputes, and the file can be written: the state of a calculator
    nothing has gone wrong in. *)
Definition sound (w : World) : Prop :=
  forallb recomputes (_history (calc w)) = true
  /\ Forall well_behaved (_observers (calc w))
  /\ writable w = true.

(** Every subscribed observer behaves as a [HistoryObserver], the only kind
    the program itself subscribes. *)
Definition history_observers (w : World) : Prop :=
  Forall (fun o => forall c, update o c = update (HistoryObserver 0) c)
    (_observers (calc w)).

(** [perform name a b] prints [value] as its result, appends exactly the
    record of operation [op] on [a] and [b], and leaves a sound calculator. *)
Definition returns_and_appends (name : string) (op : TemplateOperation)
  (value a b : float) (w : World) : Prop :=
  fst (perform name a b w) = Continue (ResultIs value)
  /\ _history (calc (snd (perform name a b w)))
     = _history (calc w) ++ [mkCalculation (Some op) a b]
  /\ length (_history (calc (snd (perform name a b w))))
     = S (length (_history (calc w)))
  /\ sound (snd (perform name a b w)).

(** The key an operation is registered under in [operations_map]. *)
Definition registry_key (op : TemplateOperation) : string :=
  match op with
  | Addition => "add"
  | Subtraction => "subtract"
  | Multiplication => "multiply"
  | Division => "divide"
  end.

(** The row [save_history] writes for a record: the class name of its
    operation, its operands, and the result computed at that moment. *)
Definition saved_as (c : Calculation) (row : Row) : Prop :=
  exists op,
    operation c = Some op
    /\ Operation row = class_name op
    /\ Operand1 row = operand1 c
    /\ Operand2 row = operand2 c
    /\ calculate op (operand1 c) (operand2 c) = Ok (Result row).

(** The cells of a row that [load_history] reads. *)
Definition row_key (row : Row) : NameCell * float * float :=
  (Operation row, Operand1 row, Operand2 row).

(** The file exists and holds one row per record of the history in memory,
    in the same order, each as [save_history] writes it. *)
Definition file_holds_history (w : World) : Prop :=
  exists rows,
    durable w = Some (pd_DataFrame rows)
    /\ Forall2 saved_as (_history (calc w)) rows.

(** The line [list] prints for a record. *)
Definition listed_as (c : Calculation) (t : CalculationText) : Prop :=
  text_operand1 t = operand1 c
  /\ text_operand2 t = operand2 c
  /\ recompute c = Ok (text_result t).

(* ------------------------------------------------------------------ *)
(** ** Running the model *)

Example startup_fresh :
  startup "calculator_history.csv" None true = Ok fresh.
Proof. reflexivity. Qed.

Example add_2_3 :
  perform "add" 2 3 fresh
  = (Continue (ResultIs 5),
     {| calc := {| history_file := "calculator_history.csv";
                   _history := [mkCalculation (Some Addition) 2 3];
                   _observers := [HistoryObserver 0] |};
        durable := Some (Columns [mkRow "Addition" 2 3 5]);
        notifications :=
          [mkNotification 0 (mkCalculation (Some Addition) 2 3)];
        writable := true |}).
Proof. vm_compute. reflexivity. Qed.

Example resolve_is_case_insensitive :
  create_operation "DiViDe" = Some Division.
Proof. reflexivity. Qed.

(* ------------------------------------------------------------------ *)
(** ** Basic facts *)

Lemma lower_ascii_idempotent c : lower_ascii (lower_ascii c) = lower_ascii c.
Proof. destruct c as [[] [] [] [] [] [] [] []]; reflexivity. Qed.

Lemma lower_idempotent s : lower (lower s) = lower s.
Proof.
  induction s as [| c rest IH]; simpl.
  - reflexivity.
  - rewrite lower_ascii_idempotent, IH. reflexivity.
Qed.

Lemma bind_Ok {A B : Type} (m : Py A) (k : A -> Py B) w b w' :
  bind m k w = (Ok b, w') ->
  exists a w1, m w = (Ok a, w1) /\ k a w1 = (Ok b, w').
Proof.
  unfold bind. destruct (m w) as [[a | e] w1]; intros H.
  - exists a, w1. split; [reflexivity | exact H].
  - discriminate H.
Qed.

Lemma recomputes_true c : recomputes c = true -> exists r, recompute c = Ok r.
Proof.
  unfold recomputes. destruct (recompute c) as [r | e]; intros H.
  - exists r. reflexivity.
  - discriminate H.
Qed.

Lemma Calculation_str_Ok c r :
  recompute c = Ok r -> exists t, Calculation_str c = Ok t.
Proof.
  intros H. unfold Calculation_str. rewrite H. simpl. eexists. reflexivity.
Qed.

Lemma Calculation_str_Raise c e :
  recompute c = Raise e -> Calculation_str c = Raise e.
Proof. intros H. unfold Calculation_str. rewrite H. reflexivity. Qed.


Lemma history_row_fields c row :
  history_row c = Ok row ->
  Operand1 row = operand1 c /\ Operand2 row = operand2 c
  /\ recompute c = Ok (Result row)
  /\ exists op, operation c = Some op /\ Operation row = class_name op.
Proof.
  unfold history_row. destruct (recompute c) as [r | e] eqn:E; simpl;
    intros H; [| discriminate H].
  injection H as <-. simpl. repeat split.
  unfold recompute in E. destruct (operation c) as [op |].
  - exists op. split; reflexivity.
  - discriminate E.
Qed.

Lemma mapM_length {A B : Type} (f : A -> result B) l l' :
  mapM f l = Ok l' -> length l' = length l.
Proof.
  revert l'. induction l as [| x rest IH]; simpl; intros l' H.
  - injection H as <-. reflexivity.
  - destruct (f x) as [y | e]; simpl in H; [| discriminate H].
    destruct (mapM f rest) as [ys | e]; simpl in H; [| discriminate H].
    injection H as <-. simpl. f_equal. apply IH. reflexivity.
Qed.

Lemma mapM_recomputes history :
  forallb recomputes history = true ->
  exists history_data, mapM history_row history = Ok history_data.
Proof.
  induction history as [| c rest IH]; simpl; intros H.
  - eexists. reflexivity.
  - apply andb_true_iff in H as [Hc Hrest].
    destruct (recomputes_true c Hc) as [r Hr].
    destruct (IH Hrest) as [rows Hrows].
    unfold history_row at 1. rewrite Hr. simpl. rewrite Hrows. simpl.
    eexists. reflexivity.
Qed.

Lemma mapM_app_one history c history_data row :
  mapM history_row history = Ok history_data ->
  history_row c = Ok row ->
  mapM history_row (history ++ [c]) = Ok (history_data ++ [row]).
Proof.
  revert history_data. induction history as [| x rest IH]; simpl;
    intros history_data H Hc.
  - injection H as <-. rewrite Hc. reflexivity.
  - destruct (history_row x) as [y | e]; simpl in *; [| discriminate H].
    destruct (mapM history_row rest) as [ys | e]; simpl in *;
      [| discriminate H].
    injection H as <-. rewrite (IH ys eq_refl Hc). reflexivity.
Qed.


(** Notifying touches neither the calculator nor the file. *)
Lemma notify_each_frame observers c w :
  calc (snd (notify_each observers c w)) = calc w
  /\ durable (snd (notify_each observers c w)) = durable w
  /\ writable (snd (notify_each observers c w)) = writable w.
Proof.
  revert w. induction observers as [| o rest IH]; intros w; simpl.
  - repeat split.
  - unfold bind, lift. destruct (update o c) as [u | e]; simpl.
    + destruct (Calculation_str c) as [t | e]; simpl.
      * destruct (IH (add_notification (mkNotification (observer_id o) c) w))
          as (H1 & H2 & H3).
        rewrite H1, H2, H3. repeat split.
      * repeat split.
    + repeat split.
Qed.

(** A round in which nobody raises calls every observer once, in order. *)
Lemma notify_each_accepted observers c w r :
  recompute c = Ok r ->
  forallb (accepts c) observers = true ->
  fst (notify_each observers c w) = Ok tt
  /\ notifications (snd (notify_each observers c w))
     = notifications w ++ round observers c.
Proof.
  intros Hr. revert w. induction observers as [| o rest IH]; intros w; simpl.
  - intros _. rewrite app_nil_r. split; reflexivity.
  - intros H. apply andb_true_iff in H as [Ho Hrest].
    unfold accepts in Ho. unfold bind, lift.
    destruct (update o c) as [u | e]; [| discriminate Ho].
    destruct (Calculation_str_Ok c r Hr) as [t Ht]. rewrite Ht.
    destruct (IH (add_notification (mkNotification (observer_id o) c) w)
                Hrest) as [H1 H2].
    split; [exact H1 |]. rewrite H2. simpl. rewrite <- app_assoc.
    reflexivity.
Qed.

Lemma save_history_frame w :
  calc (snd (save_history w)) = calc w
  /\ notifications (snd (save_history w)) = notifications w.
Proof.
  unfold save_history.
  destruct (mapM history_row (_history (calc w))); [| split; reflexivity].
  destruct (writable w); split; reflexivity.
Qed.

(** A save that returns has recomputed every record and opened the file. *)
Lemma save_history_Ok w u w1 :
  save_history w = (Ok u, w1) ->
  exists history_data,
    mapM history_row (_history (calc w)) = Ok history_data
    /\ writable w = true
    /\ w1 = set_durable (Some (pd_DataFrame history_data)) w.
Proof.
  unfold save_history.
  destruct (mapM history_row (_history (calc w))) as [rows | e];
    [| intros H; discriminate H].
  destruct (writable w); intros H; [| discriminate H].
  injection H as _ <-. exists rows. repeat split.
Qed.

(** A save that raises has changed nothing. *)
Lemma save_history_Raise w e w1 :
  save_history w = (Raise e, w1) -> w1 = w.
Proof.
  unfold save_history.
  destruct (mapM history_row (_history (calc w))) as [rows | e'].
  - destruct (writable w); intros H; [discriminate H |].
    injection H as _ <-. reflexivity.
  - intros H. injection H as _ <-. reflexivity.
Qed.

(** [perform_operation] appends its record first, whatever happens next. *)
Lemma perform_operation_history op a b w :
  _history (calc (snd (perform_operation op a b w)))
  = _history (calc w) ++ [mkCalculation (Some op) a b].
Proof.
  unfold perform_operation, bind, history_append, notify_observers, lift.
  set (c := mkCalculation (Some op) a b).
  set (w1 := set_history (_history (calc w) ++ [c]) w).
  change (_observers (calc w1)) with (_observers (calc w)).
  destruct (notify_each_frame (_observers (calc w)) c w1) as [Hcalc _].
  destruct (notify_each (_observers (calc w)) c w1) as [[u | e] w2];
    simpl in *; [| rewrite Hcalc; reflexivity].
  destruct (Calculation_str c) as [t | e]; simpl;
    [| rewrite Hcalc; reflexivity].
  destruct (save_history_frame w2) as [Hs _].
  destruct (save_history w2) as [[u' | e] w3]; simpl in *;
    rewrite Hs, Hcalc; reflexivity.
Qed.


(* ------------------------------------------------------------------ *)
(** ** Persistence round trip *)

(** C1 (the code departs from the claim).  Round trip of persistence: save
    followed by load should give back the same operations and operands, each
    recomputing to its original result.  On the history holding the single
    record "2 add 3", [save_history] writes the row (Addition, 2, 3, 5);
    [load_history] then returns one record with the operands 2 and 3 but with
    no operation, because "addition" is not a key of the registry, and
    recomputing that record raises instead of giving 5. *)
Theorem C1_round_trip_loses_the_operation :
  let history := [mkCalculation (Some Addition) 2 3] in
  let saved := holding history (Some (Columns [mkRow "Addition" 2 3 5])) in
  recompute (mkCalculation (Some Addition) 2 3) = Ok 5%float
  /\ save_history (holding history None) = (Ok tt, saved)
  /\ load_history saved = (Ok [mkCalculation None 2 3], saved)
  /\ recompute (mkCalculation None 2 3) = Raise NoneType_calculate.
Proof. repeat split. Qed.

(* ------------------------------------------------------------------ *)
(** ** Division by zero *)

Lemma divide_by_zero_raises a :
  recompute (mkCalculation (Some Division) a 0)
  = Raise (ValueError "Division by zero is not allowed.").
Proof. reflexivity. Qed.

(** With the program's own observers, dividing by zero ends in the
    division-by-zero error. *)
Lemma divide_by_zero_error w a :
  history_observers w ->
  fst (perform_operation Division a 0 w)
  = Raise (ValueError "Division by zero is not allowed.").
Proof.
  intros Hobs.
  pose proof (Calculation_str_Raise _ _ (divide_by_zero_raises a)) as Hstr.
  unfold history_observers in Hobs.
  unfold perform_operation, bind, history_append, notify_observers, lift.
  cbn [calc set_history _observers].
  destruct (_observers (calc w)) as [| o rest]; cbn [notify_each].
  - unfold ret. rewrite Hstr. reflexivity.
  - apply Forall_inv in Hobs. unfold bind. rewrite Hobs.
    cbn [update HistoryObserver]. rewrite Hstr. reflexivity.
Qed.

(** C2 (the code departs from the claim).  Dividing by exactly 0 should fail
    with the division-by-zero error and append no record.  The call does
    fail, with that error when the observers are the program's own, and
    nothing is written to the file; but the record was appended before
    anything was computed, so the history is one record longer.  At the
    REPL, "divide 10 0" on a first run reports invalid input and leaves the
    record "10 divide 0" in the history. *)
Theorem C2_divide_by_zero_appends_the_record :
  (forall w a,
      (exists e, fst (perform_operation Division a 0 w) = Raise e)
      /\ _history (calc (snd (perform_operation Division a 0 w)))
         = _history (calc w) ++ [mkCalculation (Some Division) a 0]
      /\ length (_history (calc (snd (perform_operation Division a 0 w))))
         = S (length (_history (calc w)))
      /\ durable (snd (perform_operation Division a 0 w)) = durable w)
  /\ fst (perform_operation Division 10 0 fresh)
     = Raise (ValueError "Division by zero is not allowed.")
  /\ perform "divide" 10 0 fresh
     = (Continue InvalidInput,
        {| calc := {| history_file := "calculator_history.csv";
                      _history := [mkCalculation (Some Division) 10 0];
                      _observers := [HistoryObserver 0] |};
           durable := None;
           notifications :=
             [mkNotification 0 (mkCalculation (Some Division) 10 0)];
           writable := true |}).
Proof.
  split; [| split; reflexivity].
  intros w a. split; [| split; [| split]].
  - unfold perform_operation, bind, history_append, notify_observers, lift.
    match goal with
    | |- context [notify_each ?o ?c ?w1] =>
        destruct (notify_each o c w1) as [[u | e] w2]
    end.
    + rewrite (Calculation_str_Raise _ _ (divide_by_zero_raises a)).
      eexists. reflexivity.
    + eexists. reflexivity.
  - apply perform_operation_history.
  - rewrite perform_operation_history, length_app. simpl. lia.
  - unfold perform_operation, bind, history_append, notify_observers, lift.
    match goal with
    | |- context [notify_each ?o ?c ?w1] =>
        destruct (notify_each_frame o c w1) as (_ & Hd & _);
        destruct (notify_each o c w1) as [[u | e] w2]
    end; simpl in Hd.
    + rewrite (Calculation_str_Raise _ _ (divide_by_zero_raises a)).
      exact Hd.
    + exact Hd.
Qed.

(** The record left behind by a division by zero: the next operation is
    reported as invalid input although it is valid, and [list] ends the
    process. *)
Example after_a_division_by_zero :
  let w := snd (perform "divide" 10 0 fresh) in
  fst (perform "add" 1 2 w) = Continue InvalidInput
  /\ fst (repl_step List w)
     = Uncaught (ValueError "Division by zero is not allowed.").
Proof. split; reflexivity. Qed.

(** A second session on the file the first one wrote: the record loaded has
    no operation, and the first operation performed ends the process. *)
Example second_session :
  let file := durable (snd (perform "add" 2 3 fresh)) in
  exists w,
    startup "calculator_history.csv" file true = Ok w
    /\ _history (calc w) = [mkCalculation None 2 3]
    /\ fst (perform "add" 1 1 w) = Uncaught NoneType_calculate.
Proof. eexists. repeat split. Qed.

(* ------------------------------------------------------------------ *)
(** ** Unknown operation names *)

(** C3.  For every operation name that does not resolve in the registry,
    performing it with any two operands reports the unknown operation and
    appends no record: nothing at all changes. *)
Theorem C3_unknown_operation_is_reported :
  forall operation_str a b w,
    create_operation operation_str = None ->
    perform operation_str a b w
    = (Continue (UnknownOperation operation_str), w)
    /\ _history (calc (snd (perform operation_str a b w)))
       = _history (calc w).
Proof.
  intros operation_str a b w H. unfold perform. rewrite H.
  split; reflexivity.
Qed.

Lemma C3_witness :
  create_operation "bogus" = None
  /\ perform "bogus" 1 2 fresh = (Continue (UnknownOperation "bogus"), fresh).
Proof.
  split; [reflexivity |].
  apply (C3_unknown_operation_is_reported "bogus" 1 2 fresh). reflexivity.
Defined.

Lemma mapM_In {A B : Type} (f : A -> result B) l l' x y :
  mapM f l = Ok l' -> In x l -> f x = Ok y -> In y l'.
Proof.
  revert l'. induction l as [| a rest IH]; simpl; intros l' H Hin Hx.
  - contradiction.
  - destruct (f a) as [b | e] eqn:Ha; simpl in H; [| discriminate H].
    destruct (mapM f rest) as [bs | e]; simpl in H; [| discriminate H].
    injection H as <-. destruct Hin as [-> | Hin].
    + left. congruence.
    + right. apply (IH bs eq_refl Hin Hx).
Qed.

Lemma mapM_Raise_In {A B : Type} (f : A -> result B) l x e :
  In x l -> f x = Raise e -> exists e', mapM f l = Raise e'.
Proof.
  induction l as [| a rest IH]; simpl; intros Hin Hx.
  - contradiction.
  - destruct Hin as [-> | Hin].
    + rewrite Hx. exists e. reflexivity.
    + destruct (f a) as [b | e0]; simpl; [| exists e0; reflexivity].
      destruct (IH Hin Hx) as [e' He']. rewrite He'.
      exists e'. reflexivity.
Qed.

(** Loading raises nothing but the attribute error of a name cell that is
    not text. *)
Lemma mapM_row_calculation_Raise rows e :
  mapM row_calculation rows = Raise e ->
  exists type_name,
    e = AttributeError
          ("'" ++ type_name ++ "' object has no attribute 'lower'").
Proof.
  induction rows as [| row rest IH]; simpl; intros H.
  - discriminate H.
  - unfold row_calculation at 1 in H.
    destruct (Operation row) as [s | type_name]; cbn [cell_lower rbind] in H.
    + destruct (mapM row_calculation rest) as [cs | e'];
        cbn [rbind] in H; [discriminate H |].
      injection H as <-. apply IH. reflexivity.
    + injection H as <-. exists type_name. reflexivity.
Qed.

(** C4 (the code departs from the claim).  A persisted row whose operation
    name does not resolve should load as a record bound to a
    missing-operation marker whose recomputation fails with a clear
    unknown-operation error.  What the code does with such a row depends on
    its name cell.  When the cell is text that is no registry key, and the
    file loads, the record is there with [None] for its operation, and
    recomputing it, in [recompute], in [Calculation.__str__] and in
    [save_history] alike, raises the attribute error of calling [calculate]
    on [None].  When the cell is not text at all (pandas read it as a missing
    value or a number), loading the file raises the attribute error of
    calling [lower] on it and no record is built. *)
Theorem C4_unresolved_row_recompute_is_a_None_fault :
  forall w rows row,
    durable w = Some (Columns rows) ->
    In row rows ->
    (forall s history,
        Operation row = Text s ->
        create_operation s = None ->
        fst (load_history w) = Ok history ->
        let c := mkCalculation None (Operand1 row) (Operand2 row) in
        In c history
        /\ recompute c = Raise NoneType_calculate
        /\ Calculation_str c = Raise NoneType_calculate
        /\ history_row c = Raise NoneType_calculate)
    /\ (forall type_name,
           Operation row = NotText type_name ->
           exists type_name',
             load_history w
             = (Raise (AttributeError
                         ("'" ++ type_name'
                              ++ "' object has no attribute 'lower'")),
                w)).
Proof.
  intros w rows row Hd Hin. split.
  - intros s history Hcell Hnone Hload c.
    split; [| repeat split].
    unfold load_history in Hload. rewrite Hd in Hload.
    cbn [read_csv rbind] in Hload.
    destruct (mapM row_calculation rows) as [loaded | e] eqn:Hrows;
      simpl in Hload; [| discriminate Hload].
    injection Hload as ->.
    apply (mapM_In _ _ _ row c Hrows Hin).
    unfold row_calculation. rewrite Hcell. cbn [cell_lower rbind].
    unfold create_operation in *. rewrite lower_idempotent, Hnone.
    reflexivity.
  - intros type_name Hcell.
    unfold load_history. rewrite Hd. cbn [read_csv rbind].
    destruct (mapM_Raise_In row_calculation rows row
                (AttributeError
                   ("'" ++ type_name ++ "' object has no attribute 'lower'"))
                Hin) as [e He].
    { unfold row_calculation. rewrite Hcell. reflexivity. }
    rewrite He. destruct (mapM_row_calculation_Raise rows e He) as [t ->].
    exists t. reflexivity.
Qed.

Lemma C4_witness :
  let row := mkRow "bogus" 1 2 3 in
  let c := mkCalculation None 1 2 in
  fst (load_history (holding [] (Some (Columns [row])))) = Ok [c]
  /\ In c [c]
  /\ Calculation_str c = Raise NoneType_calculate.
Proof.
  intros row c.
  destruct (C4_unresolved_row_recompute_is_a_None_fault
              (holding [] (Some (Columns [row]))) [row] row
              eq_refl (or_introl eq_refl)) as [Htext _].
  destruct (Htext "bogus" [c] eq_refl eq_refl eq_refl)
    as (Hin & _ & Hstr & _).
  split; [reflexivity |]. split; [exact Hin | exact Hstr].
Defined.

(** A name cell pandas read as a missing value: the load raises. *)
Example load_of_a_missing_name :
  load_history (holding [] (Some (Columns [mkRow (NotText "float") 1 2 3])))
  = (Raise (AttributeError "'float' object has no attribute 'lower'"),
     holding [] (Some (Columns [mkRow (NotText "float") 1 2 3]))).
Proof. reflexivity. Qed.

(* ------------------------------------------------------------------ *)
(** ** Observers *)

(** A full round in which nobody raises, as an equation on worlds. *)
Lemma notify_each_accepted_world observers c w r :
  recompute c = Ok r ->
  forallb (accepts c) observers = true ->
  notify_each observers c w
  = (Ok tt,
     {| calc := calc w;
        durable := durable w;
        notifications := notifications w ++ round observers c;
        writable := writable w |}).
Proof.
  intros Hr Hacc.
  destruct (notify_each_frame observers c w) as (Hc & Hd & Hw).
  destruct (notify_each_accepted observers c w r Hr Hacc) as [Hf Hn].
  destruct (notify_each observers c w) as [res [c' d' n' w']]. simpl in *.
  subst. reflexivity.
Qed.

(** [perform_operation] adds no notification of its own, and an exception
    raised while notifying is the outcome of the whole call. *)
Lemma perform_operation_notifications op a b w :
  let c := mkCalculation (Some op) a b in
  let notified :=
    notify_each (_observers (calc w)) c
      (set_history (_history (calc w) ++ [c]) w) in
  notifications (snd (perform_operation op a b w))
  = notifications (snd notified)
  /\ forall e, fst notified = Raise e ->
               fst (perform_operation op a b w) = Raise e.
Proof.
  intros c notified. subst notified.
  unfold perform_operation, bind, history_append, notify_observers, lift.
  fold c. set (w1 := set_history (_history (calc w) ++ [c]) w).
  change (_observers (calc w1)) with (_observers (calc w)).
  destruct (notify_each (_observers (calc w)) c w1) as [[u | e0] w2]; simpl.
  - split; [| intros e H; discriminate H].
    destruct (Calculation_str c) as [t | e0]; simpl; [| reflexivity].
    destruct (save_history_frame w2) as [_ Hn].
    destruct (save_history w2) as [[u' | e0] w3]; simpl in *; exact Hn.
  - split; [reflexivity |]. intros e H. injection H as <-. reflexivity.
Qed.

(** C5, as stated, fails: with a first observer that raises, "add 1 2"
    invokes the first observer only and the call ends in its exception. *)
Lemma C5_counterexample :
  ~ observer_contract (failing_observer 1) (HistoryObserver 2) Addition 1 2.
Proof.
  unfold observer_contract. intros [H _]. vm_compute in H. discriminate H.
Qed.

(** C5, amended.  For any two subscribed observers and any one performed
    operation, observers are invoked in subscription order: when the first
    observer returns normally and the record's result can be computed, both
    are invoked exactly once each, the first before the second; when the
    first observer raises, it is the only one invoked and the operation ends
    with its exception. *)
Theorem C5_observers_in_order_until_one_raises :
  forall o1 o2 op a b w,
    _observers (calc w) = [o1; o2] ->
    let c := mkCalculation (Some op) a b in
    (forall r,
        update o1 c = Ok tt ->
        recompute c = Ok r ->
        notifications (snd (perform_operation op a b w))
        = notifications w
            ++ [mkNotification (observer_id o1) c;
                mkNotification (observer_id o2) c])
    /\ (forall e,
           update o1 c = Raise e ->
           notifications (snd (perform_operation op a b w))
           = notifications w ++ [mkNotification (observer_id o1) c]
           /\ fst (perform_operation op a b w) = Raise e).
Proof.
  intros o1 o2 op a b w Hobs c.
  destruct (perform_operation_notifications op a b w) as [Hn He].
  subst c. cbv zeta in Hn, He. rewrite Hobs in Hn, He.
  set (c := mkCalculation (Some op) a b) in *. split.
  - intros r H1 Hr. rewrite Hn. cbn [notify_each]. unfold bind, lift, ret.
    rewrite H1. destruct (Calculation_str_Ok c r Hr) as [t Ht]. rewrite Ht.
    destruct (update o2 c) as [u | e];
      cbn [snd notifications add_notification set_history];
      rewrite <- app_assoc; reflexivity.
  - intros e H1. split.
    + rewrite Hn. cbn [notify_each]. unfold bind. rewrite H1. reflexivity.
    + apply He. cbn [notify_each]. unfold bind. rewrite H1. reflexivity.
Qed.

Lemma C5_witness :
  let c := mkCalculation (Some Addition) 1 2 in
  notifications
    (snd (perform_operation Addition 1 2
            (snd (add_observer (HistoryObserver 1) fresh))))
  = [mkNotification 0 c; mkNotification 1 c].
Proof.
  intros c.
  destruct (C5_observers_in_order_until_one_raises
              (HistoryObserver 0) (HistoryObserver 1) Addition 1 2
              (snd (add_observer (HistoryObserver 1) fresh)) eq_refl)
    as [Hboth _].
  apply (Hboth 3%float); reflexivity.
Defined.

(* ------------------------------------------------------------------ *)
(** ** Successful operations *)

Lemma HistoryObserver_well_behaved id : well_behaved (HistoryObserver id).
Proof.
  intros c H. destruct (recomputes_true c H) as [r Hr].
  destruct (Calculation_str_Ok c r Hr) as [t Ht].
  unfold accepts, HistoryObserver. simpl. rewrite Ht. reflexivity.
Qed.

Lemma well_behaved_accept observers c :
  Forall well_behaved observers ->
  recomputes c = true ->
  forallb (accepts c) observers = true.
Proof.
  intros Hall Hc. apply forallb_forall. intros o Hin.
  rewrite Forall_forall in Hall. apply (Hall o Hin c Hc).
Qed.

(** When every record already stored recomputes and no observer raises, a
    computable operation runs to its end: record appended, every observer
    notified, whole history written, result returned. *)
Lemma perform_operation_succeeds w op a b r :
  calculate op a b = Ok r ->
  forallb recomputes (_history (calc w)) = true ->
  forallb (accepts (mkCalculation (Some op) a b)) (_observers (calc w))
  = true ->
  writable w = true ->
  exists history_data,
    mapM history_row (_history (calc w) ++ [mkCalculation (Some op) a b])
    = Ok history_data
    /\ perform_operation op a b w
       = (Ok r,
          {| calc := {| history_file := history_file (calc w);
                        _history :=
                          _history (calc w) ++ [mkCalculation (Some op) a b];
                        _observers := _observers (calc w) |};
             durable := Some (pd_DataFrame history_data);
             notifications :=
               notifications w
                 ++ round (_observers (calc w))
                      (mkCalculation (Some op) a b);
             writable := true |}).
Proof.
  intros Hr Hh Hobs Hw. set (c := mkCalculation (Some op) a b) in *.
  assert (Hc : recompute c = Ok r) by exact Hr.
  destruct (mapM_recomputes _ Hh) as [rows Hrows].
  assert (Hrow : history_row c
                 = Ok (mkRow (class_name op) a b r))
    by (unfold history_row; rewrite Hc; reflexivity).
  pose proof (mapM_app_one _ _ _ _ Hrows Hrow) as Hall.
  exists (rows ++ [mkRow (class_name op) a b r]). split; [exact Hall |].
  destruct (Calculation_str_Ok c r Hc) as [t Ht].
  unfold perform_operation, bind, history_append, notify_observers, lift.
  fold c. set (w1 := set_history (_history (calc w) ++ [c]) w).
  change (_observers (calc w1)) with (_observers (calc w)).
  rewrite (notify_each_accepted_world _ c w1 r Hc Hobs), Ht.
  unfold save_history. cbn [calc w1 set_history _history writable].
  rewrite Hall, Hw, Hr. reflexivity.
Qed.

Lemma returns_and_appends_intro name op value a b w :
  create_operation name = Some op ->
  calculate op a b = Ok value ->
  sound w ->
  returns_and_appends name op value a b w.
Proof.
  intros Hname Hvalue (Hh & Hobs & Hw).
  assert (Hc : recomputes (mkCalculation (Some op) a b) = true).
  { unfold recomputes, recompute. simpl. rewrite Hvalue. reflexivity. }
  pose proof (well_behaved_accept _ _ Hobs Hc) as Hacc.
  destruct (perform_operation_succeeds w op a b value Hvalue Hh Hacc Hw)
    as (rows & _ & Hrun).
  unfold returns_and_appends, sound, perform. rewrite Hname, Hrun.
  cbn [fst snd calc _history _observers writable]. repeat split.
  - rewrite length_app. simpl. lia.
  - rewrite forallb_app, Hh. simpl. rewrite Hc. reflexivity.
  - exact Hobs.
Qed.

Lemma fresh_sound : sound fresh.
Proof.
  split; [reflexivity |]. split; [| reflexivity].
  apply Forall_cons; [apply HistoryObserver_well_behaved | apply Forall_nil].
Qed.

(** In a sound calculator "add", "subtract" and "multiply" return a + b,
    a - b and a * b, append exactly the record of that operation and leave
    the calculator sound. *)
Lemma add_subtract_multiply_when_sound w a b :
  sound w ->
  returns_and_appends "add" Addition (a + b)%float a b w
  /\ returns_and_appends "subtract" Subtraction (a - b)%float a b w
  /\ returns_and_appends "multiply" Multiplication (a * b)%float a b w.
Proof.
  intros Hw.
  split; [| split]; apply returns_and_appends_intro;
    solve [reflexivity | assumption].
Qed.

(** C6 (the code departs from the claim).  "add", "subtract" and "multiply"
    should return a + b, a - b and a * b for every pair of operands and
    append exactly one record.  They do in a first session.  In a second
    session, started on the file the first one wrote, the record loaded has
    no operation; each of the three operations then appends its record and
    ends the process with the attribute error raised while the history is
    saved, without returning anything.  After a division by zero in the
    first session, "add 1 2" is reported as invalid input. *)
Theorem C6_operations_do_not_return_in_a_second_session :
  fst (perform "add" 2 3 fresh) = Continue (ResultIs 5)
  /\ (exists w2,
        startup "calculator_history.csv"
          (durable (snd (perform "add" 2 3 fresh))) true = Ok w2
        /\ _history (calc w2) = [mkCalculation None 2 3]
        /\ fst (perform "add" 1 1 w2) = Uncaught NoneType_calculate
        /\ fst (perform "subtract" 1 1 w2) = Uncaught NoneType_calculate
        /\ fst (perform "multiply" 1 1 w2) = Uncaught NoneType_calculate
        /\ _history (calc (snd (perform "add" 1 1 w2)))
           = [mkCalculation None 2 3; mkCalculation (Some Addition) 1 1]
        /\ durable (snd (perform "add" 1 1 w2)) = durable w2)
  /\ fst (perform "add" 1 2 (snd (perform "divide" 10 0 fresh)))
     = Continue InvalidInput.
Proof.
  split; [reflexivity |]. split; [| reflexivity].
  eexists. split; [reflexivity |]. repeat split.
Qed.

(* ------------------------------------------------------------------ *)
(** ** Saving and loading *)

(** C7.  In every state in which save succeeds, a second save with no append
    in between succeeds too and leaves the very same file: the same table,
    hence the same bytes however float cells are printed. *)
Theorem C7_save_is_idempotent :
  forall w w1,
    save_history w = (Ok tt, w1) ->
    save_history w1 = (Ok tt, w1)
    /\ durable (snd (save_history w1)) = durable w1
    /\ forall float_repr,
         durable_bytes float_repr (snd (save_history w1))
         = durable_bytes float_repr w1.
Proof.
  intros w w1 H.
  apply save_history_Ok in H as (rows & Hrows & Hw & ->).
  assert (Hagain : save_history (set_durable (Some (pd_DataFrame rows)) w)
                   = (Ok tt, set_durable (Some (pd_DataFrame rows)) w)).
  { unfold save_history. cbn [calc set_durable writable].
    rewrite Hrows, Hw. reflexivity. }
  rewrite Hagain. repeat split.
Qed.

Lemma C7_witness :
  let w := holding [mkCalculation (Some Addition) 2 3] None in
  let w1 := snd (save_history w) in
  durable w1 = Some (Columns [mkRow "Addition" 2 3 5])
  /\ durable (snd (save_history w1)) = durable w1.
Proof.
  intros w w1. split; [reflexivity |].
  destruct (C7_save_is_idempotent w w1 eq_refl) as (_ & H & _). exact H.
Defined.

(** C8.  If the history file does not exist, load returns the empty sequence
    and raises nothing, and so a calculator built on such a path starts with
    an empty history. *)
Theorem C8_load_without_a_file :
  forall w,
    durable w = None ->
    load_history w = (Ok [], w)
    /\ init (history_file (calc w)) (durable w) (writable w)
       = Ok {| calc := {| history_file := history_file (calc w);
                          _history := [];
                          _observers := [] |};
               durable := None;
               notifications := [];
               writable := writable w |}.
Proof.
  intros w H. unfold init, load_history. cbn [durable]. rewrite H.
  split; reflexivity.
Qed.

Lemma C8_witness : load_history fresh = (Ok [], fresh).
Proof. apply (C8_load_without_a_file fresh). reflexivity. Defined.

(** C9 (the code departs from the claim).  After every successful append
    the file should hold exactly the in-memory sequence of records.  The
    append is the first statement of [perform_operation] and the save one of
    its last, and what lies between can raise.  After "divide 10 0" on a
    first run the record of that division is in the history in memory, no
    file has been written, loading returns no record, and a save attempted
    now raises, so the two stay apart until the history is cleared. *)
Theorem C9_appended_record_is_not_written :
  let w := snd (perform "divide" 10 0 fresh) in
  _history (calc w) = [mkCalculation (Some Division) 10 0]
  /\ durable w = None
  /\ load_history w = (Ok [], w)
  /\ ~ file_holds_history w
  /\ save_history w
     = (Raise (ValueError "Division by zero is not allowed."), w)
  /\ fst (repl_step Clear w) = Continue HistoryCleared
  /\ _history (calc (snd (repl_step Clear w))) = []
  /\ durable (snd (repl_step Clear w)) = Some NoColumns.
Proof.
  intros w. repeat split.
  intros (rows & Hd & _). discriminate Hd.
Qed.

(** C10.  In every state, loading the history manually returns the records
    read from the file (or raises what reading raises) and changes nothing:
    the calculator, with its in-memory history, and everything else are as
    before, also when the REPL runs its load_history command. *)
Theorem C10_manual_load_changes_nothing :
  forall w,
    snd (load_history_manually w) = w
    /\ calc (snd (load_history_manually w)) = calc w
    /\ fst (load_history_manually w)
       = match durable w with
         | Some file =>
             (df <- read_csv file ;; mapM row_calculation df)%result
         | None => Ok []
         end
    /\ snd (repl_step LoadHistory w) = w.
Proof.
  intros w. unfold repl_step, unguarded, load_history_manually, load_history.
  destruct (durable w) as [file |]; [| repeat split].
  destruct (df <- read_csv file ;; mapM row_calculation df)%result;
    repeat split.
Qed.

Example manual_load_returns_without_storing :
  let w := holding [] (Some (Columns [mkRow "add" 1 2 3])) in
  load_history_manually w = (Ok [mkCalculation (Some Addition) 1 2], w)
  /\ repl_step LoadHistory w
     = (Continue (ManuallyLoaded "calculator_history.csv"), w).
Proof. split; reflexivity. Qed.

(* ------------------------------------------------------------------ *)
(** ** The registry *)

Lemma registry_key_resolves op : create_operation (registry_key op) = Some op.
Proof. destruct op; reflexivity. Qed.

(** X1.  A name resolves to an operation exactly when its lowercase form is
    the key that operation is registered under; every other name, in
    whatever letter case, resolves to nothing. *)
Theorem create_operation_iff :
  forall operation op,
    create_operation operation = Some op
    <-> lower operation = registry_key op.
Proof.
  intros operation op. unfold create_operation, operations_map, get. split.
  - destruct (String.eqb_spec "add" (lower operation)) as [<- | _].
    { intros H. injection H as <-. reflexivity. }
    destruct (String.eqb_spec "subtract" (lower operation)) as [<- | _].
    { intros H. injection H as <-. reflexivity. }
    destruct (String.eqb_spec "multiply" (lower operation)) as [<- | _].
    { intros H. injection H as <-. reflexivity. }
    destruct (String.eqb_spec "divide" (lower operation)) as [<- | _].
    { intros H. injection H as <-. reflexivity. }
    intros H. discriminate H.
  - intros ->. destruct op; reflexivity.
Qed.

(** Resolution is insensitive to letter case: a name and any respelling of
    it with the same lowercase form resolve alike, so lowercasing a name
    before handing it to the factory, as [load_history] does, changes
    nothing. *)
Lemma create_operation_ignores_case :
  forall s t,
    lower s = lower t ->
    create_operation s = create_operation t
    /\ create_operation (lower s) = create_operation t.
Proof.
  intros s t H. unfold create_operation.
  rewrite lower_idempotent, H. split; reflexivity.
Qed.

Lemma create_operation_ignores_case_witness :
  create_operation "MULTIPLY" = create_operation "Multiply"
  /\ create_operation (lower "MULTIPLY") = Some Multiplication.
Proof.
  destruct (create_operation_ignores_case "MULTIPLY" "Multiply" eq_refl)
    as [H1 H2].
  split; [exact H1 | rewrite H2; reflexivity].
Defined.

(* ------------------------------------------------------------------ *)
(** ** The template method *)

Lemma calculate_Raise_inv op a b e :
  calculate op a b = Raise e ->
  e = ValueError "Division by zero is not allowed.".
Proof.
  unfold calculate, validate_inputs.
  destruct op; simpl; try (intros H; discriminate H).
  destruct (b =? 0)%float; simpl; intros H; [| discriminate H].
  injection H as <-. reflexivity.
Qed.

Example negative_zero_is_zero :
  calculate Division 1 (-0)
  = Raise (ValueError "Division by zero is not allowed.").
Proof. reflexivity. Qed.

(* ------------------------------------------------------------------ *)
(** ** Loading *)

(** X4.  The [Result] column is never read.  Two files whose rows
    agree on name and operands load to the same history, whatever their
    [Result] cells hold. *)
Theorem load_history_ignores_Result :
  forall w rows rows',
    map row_key rows = map row_key rows' ->
    fst (load_history (set_durable (Some (Columns rows)) w))
    = fst (load_history (set_durable (Some (Columns rows')) w)).
Proof.
  intros w rows rows' H.
  assert (Hsame : mapM row_calculation rows = mapM row_calculation rows').
  { revert rows' H. induction rows as [| r rest IH]; intros [| r' rest'] H;
      cbn [map] in H; try discriminate H.
    - reflexivity.
    - assert (Hk : row_key r = row_key r') by congruence.
      assert (Hrest : map row_key rest = map row_key rest') by congruence.
      cbn [mapM]. rewrite (IH rest' Hrest).
      assert (Hrow : row_calculation r = row_calculation r').
      { unfold row_key in Hk. injection Hk as Hn H1 H2.
        unfold row_calculation. rewrite Hn, H1, H2. reflexivity. }
      rewrite Hrow. reflexivity. }
  unfold load_history. cbn [durable set_durable read_csv rbind].
  rewrite Hsame. destruct (mapM row_calculation rows'); reflexivity.
Qed.

Lemma load_history_ignores_Result_witness :
  fst (load_history (set_durable (Some (Columns [mkRow "add" 2 3 5])) fresh))
  = fst (load_history
           (set_durable (Some (Columns [mkRow "add" 2 3 99])) fresh)).
Proof.
  apply (load_history_ignores_Result fresh
           [mkRow "add" 2 3 5] [mkRow "add" 2 3 99]).
  reflexivity.
Defined.

(* ------------------------------------------------------------------ *)
(** ** Saving *)

Lemma mapM_Ok_recomputes history history_data :
  mapM history_row history = Ok history_data ->
  forallb recomputes history = true.
Proof.
  revert history_data. induction history as [| c rest IH]; simpl;
    intros history_data H.
  - reflexivity.
  - destruct (history_row c) as [row | e] eqn:Hrow; simpl in H;
      [| discriminate H].
    destruct (mapM history_row rest) as [rows | e]; simpl in H;
      [| discriminate H].
    destruct (history_row_fields c row Hrow) as (_ & _ & Hr & _).
    unfold recomputes at 1. rewrite Hr. simpl. apply (IH rows eq_refl).
Qed.

Lemma mapM_Raise_recomputes history e :
  mapM history_row history = Raise e ->
  forallb recomputes history = false.
Proof.
  intros H. destruct (forallb recomputes history) eqn:E; [| reflexivity].
  destruct (mapM_recomputes history E) as [rows Hrows].
  rewrite Hrows in H. discriminate H.
Qed.

Lemma mapM_saved_as history history_data :
  mapM history_row history = Ok history_data ->
  Forall2 saved_as history history_data.
Proof.
  revert history_data. induction history as [| c rest IH]; simpl;
    intros history_data H.
  - injection H as <-. constructor.
  - destruct (history_row c) as [row | e] eqn:Hrow; simpl in H;
      [| discriminate H].
    destruct (mapM history_row rest) as [rows | e]; simpl in H;
      [| discriminate H].
    injection H as <-. constructor; [| apply IH; reflexivity].
    destruct (history_row_fields c row Hrow) as (H1 & H2 & Hr & op & Ho & Hn).
    exists op. repeat split; try assumption.
    unfold recompute in Hr. rewrite Ho in Hr. exact Hr.
Qed.

Lemma save_history_outcome w :
  match save_history w with
  | (Ok _, w') =>
      forallb recomputes (_history (calc w)) = true
      /\ writable w = true
      /\ calc w' = calc w
  | (Raise _, w') =>
      (forallb recomputes (_history (calc w)) = false \/ writable w = false)
      /\ w' = w
  end.
Proof.
  unfold save_history.
  destruct (mapM history_row (_history (calc w))) as [rows | e] eqn:Hrows.
  - destruct (writable w).
    + repeat split. apply (mapM_Ok_recomputes _ _ Hrows).
    + split; [right |]; reflexivity.
  - split; [left; apply (mapM_Raise_recomputes _ _ Hrows) | reflexivity].
Qed.

(** X5.  [save_history] is all or nothing.  When every stored record
    recomputes and the file can be opened for writing, it rewrites the file
    with one row per record and changes nothing else; when some record does
    not recompute or the file cannot be opened, it raises and the state,
    file included, is exactly as before. *)
Theorem save_history_all_or_nothing :
  forall w,
    match save_history w with
    | (Ok _, w') =>
        forallb recomputes (_history (calc w)) = true
        /\ writable w = true
        /\ calc w' = calc w
        /\ notifications w' = notifications w
        /\ writable w' = writable w
        /\ file_holds_history w'
    | (Raise _, w') =>
        (forallb recomputes (_history (calc w)) = false
         \/ writable w = false)
        /\ w' = w
    end.
Proof.
  intros w. unfold save_history.
  destruct (mapM history_row (_history (calc w))) as [rows | e] eqn:Hrows.
  - destruct (writable w) eqn:Hw.
    + split; [apply (mapM_Ok_recomputes _ _ Hrows) |].
      split; [reflexivity |]. split; [reflexivity |].
      split; [reflexivity |]. split; [exact Hw |].
      exists rows. split; [reflexivity |].
      apply (mapM_saved_as _ _ Hrows).
    + split; [right |]; reflexivity.
  - split; [left; apply (mapM_Raise_recomputes _ _ Hrows) | reflexivity].
Qed.

Example save_on_a_read_only_file :
  let w := set_writable false
             (holding [mkCalculation (Some Addition) 2 3] None) in
  save_history w = (Raise (OSError "calculator_history.csv"), w).
Proof. reflexivity. Qed.

(** X6.  What a successful save puts in the file: one row per record, in
    the order of the history, each holding the class name of the record's
    operation, its two operands and the result computed from them. *)
Theorem save_history_rows :
  forall w w1,
    save_history w = (Ok tt, w1) ->
    exists history_data,
      durable w1 = Some (pd_DataFrame history_data)
      /\ length history_data = length (_history (calc w))
      /\ Forall2 saved_as (_history (calc w)) history_data.
Proof.
  intros w w1 H.
  apply save_history_Ok in H as (rows & Hrows & _ & ->).
  exists rows. repeat split.
  - apply (mapM_length _ _ _ Hrows).
  - apply (mapM_saved_as _ _ Hrows).
Qed.

Lemma save_history_rows_witness :
  exists history_data,
    durable (snd (save_history
                    (holding [mkCalculation (Some Division) 6 3] None)))
    = Some (pd_DataFrame history_data)
    /\ length history_data = 1.
Proof.
  destruct (save_history_rows
              (holding [mkCalculation (Some Division) 6 3] None)
              (snd (save_history
                      (holding [mkCalculation (Some Division) 6 3] None)))
              eq_refl)
    as (rows & Hd & Hlen & _).
  exists rows. split; [exact Hd | exact Hlen].
Defined.



(* ------------------------------------------------------------------ *)
(** ** Notifying and performing, in general *)

Lemma notify_each_prefix observers c w :
  exists k,
    k <= length observers
    /\ notifications (snd (notify_each observers c w))
       = notifications w ++ round (firstn k observers) c.
Proof.
  revert w. induction observers as [| o rest IH]; intros w.
  - exists 0. split; [apply le_n |]. simpl. rewrite app_nil_r. reflexivity.
  - cbn [notify_each]. unfold bind, lift.
    destruct (update o c) as [u | e].
    + destruct (Calculation_str c) as [t | e].
      * destruct (IH (add_notification (mkNotification (observer_id o) c) w))
          as (k & Hk & Hn).
        exists (S k). split; [simpl; lia |]. rewrite Hn. simpl.
        rewrite <- app_assoc. reflexivity.
      * exists 1. split; [simpl; lia |]. reflexivity.
    + exists 1. split; [simpl; lia |]. reflexivity.
Qed.

Lemma notify_each_Ok_accepted observers c w u :
  fst (notify_each observers c w) = Ok u ->
  forallb (accepts c) observers = true.
Proof.
  revert w. induction observers as [| o rest IH]; intros w H.
  - reflexivity.
  - cbn [notify_each] in H. unfold bind, lift in H. simpl.
    unfold accepts at 1.
    destruct (update o c) as [u' | e]; [| discriminate H].
    destruct (Calculation_str c) as [t | e]; [| discriminate H].
    simpl. apply (IH _ H).
Qed.

Lemma notify_each_first_failure before o after c w r e :
  recompute c = Ok r ->
  forallb (accepts c) before = true ->
  update o c = Raise e ->
  fst (notify_each (before ++ o :: after) c w) = Raise e
  /\ notifications (snd (notify_each (before ++ o :: after) c w))
     = notifications w ++ round (before ++ [o]) c.
Proof.
  intros Hr Hacc Ho. destruct (Calculation_str_Ok c r Hr) as [t Ht].
  revert w Hacc. induction before as [| p rest IH]; intros w Hacc.
  - cbn [app notify_each]. unfold bind. rewrite Ho. split; reflexivity.
  - simpl in Hacc. apply andb_true_iff in Hacc as [Hp Hrest].
    unfold accepts in Hp. cbn [app notify_each]. unfold bind, lift.
    destruct (update p c) as [u | e']; [| discriminate Hp]. rewrite Ht.
    destruct (IH (add_notification (mkNotification (observer_id p) c) w)
                Hrest) as [H1 H2].
    split; [exact H1 |]. rewrite H2. simpl. rewrite <- app_assoc.
    reflexivity.
Qed.

(** X8.  Whatever happens, one performed operation calls a front part of
    the subscriber list and nobody else: the observers called are the first
    k subscribers for some k, each called once, in subscription order, with
    the new record. *)
Theorem perform_operation_notifies_a_prefix :
  forall op a b w,
    exists k,
      k <= length (_observers (calc w))
      /\ notifications (snd (perform_operation op a b w))
         = notifications w
             ++ round (firstn k (_observers (calc w)))
                  (mkCalculation (Some op) a b).
Proof.
  intros op a b w.
  destruct (perform_operation_notifications op a b w) as [Hn _].
  cbv zeta in Hn. rewrite Hn.
  apply (notify_each_prefix (_observers (calc w))
           (mkCalculation (Some op) a b)
           (set_history (_history (calc w) ++ [mkCalculation (Some op) a b])
              w)).
Qed.

Lemma perform_operation_Ok_inv w op a b r :
  fst (perform_operation op a b w) = Ok r ->
  calculate op a b = Ok r
  /\ forallb recomputes (_history (calc w)) = true
  /\ forallb (accepts (mkCalculation (Some op) a b)) (_observers (calc w))
     = true
  /\ writable w = true.
Proof.
  intros H.
  destruct (perform_operation op a b w) as [res w'] eqn:E.
  simpl in H. subst res. unfold perform_operation in E.
  apply bind_Ok in E as (u1 & w1 & Happ & E).
  apply bind_Ok in E as (u2 & w2 & Hnot & E).
  apply bind_Ok in E as (t & w3 & Hstr & E).
  apply bind_Ok in E as (u4 & w4 & Hsave & E).
  unfold lift in E. injection E as Hcalc _.
  unfold history_append in Happ. injection Happ as _ Hw1. subst w1.
  unfold notify_observers in Hnot. cbn [calc set_history _observers] in Hnot.
  unfold lift in Hstr. injection Hstr as _ Hw3. subst w3.
  pose proof (notify_each_frame (_observers (calc w))
                (mkCalculation (Some op) a b)
                (set_history
                   (_history (calc w) ++ [mkCalculation (Some op) a b])
                   w)) as (Hc & _ & Hw).
  rewrite Hnot in Hc, Hw. simpl in Hc, Hw.
  apply save_history_Ok in Hsave as (rows & Hrows & Hw2 & _).
  rewrite Hc in Hrows. simpl in Hrows.
  split; [exact Hcalc |]. split; [| split].
  - apply mapM_Ok_recomputes in Hrows. rewrite forallb_app in Hrows.
    apply andb_true_iff in Hrows as [Hh _]. exact Hh.
  - apply (notify_each_Ok_accepted _ _ _ u2 (f_equal fst Hnot)).
  - rewrite <- Hw. exact Hw2.
Qed.

(** X9.  [perform_operation] returns a value exactly when the operation
    computes, every record already stored recomputes, every subscribed
    observer accepts the new record and the file can be opened for writing;
    the value is then the one computed, every subscriber has been called
    once, in order, and the file holds one row per record of the history. *)
Theorem perform_operation_returns_iff :
  forall w op a b r,
    (fst (perform_operation op a b w) = Ok r
     <-> calculate op a b = Ok r
         /\ forallb recomputes (_history (calc w)) = true
         /\ forallb (accepts (mkCalculation (Some op) a b))
              (_observers (calc w)) = true
         /\ writable w = true)
    /\ (fst (perform_operation op a b w) = Ok r ->
        notifications (snd (perform_operation op a b w))
        = notifications w
            ++ round (_observers (calc w)) (mkCalculation (Some op) a b)
        /\ file_holds_history (snd (perform_operation op a b w))).
Proof.
  intros w op a b r. split; [split |].
  - apply perform_operation_Ok_inv.
  - intros (Hcalc & Hh & Hacc & Hw).
    destruct (perform_operation_succeeds w op a b r Hcalc Hh Hacc Hw)
      as (rows & _ & Hrun).
    rewrite Hrun. reflexivity.
  - intros H.
    apply perform_operation_Ok_inv in H as (Hcalc & Hh & Hacc & Hw).
    destruct (perform_operation_succeeds w op a b r Hcalc Hh Hacc Hw)
      as (rows & Hrows & Hrun).
    rewrite Hrun. split; [reflexivity |].
    exists rows. split; [reflexivity |].
    apply (mapM_saved_as _ _ Hrows).
Qed.

Lemma perform_operation_returns_iff_witness :
  let w := snd (perform_operation Addition 1 1 fresh) in
  fst (perform_operation Multiplication 2 3 w) = Ok 6%float
  /\ file_holds_history (snd (perform_operation Multiplication 2 3 w)).
Proof.
  intros w.
  destruct (perform_operation_returns_iff w Multiplication 2 3 6)
    as [[_ Hback] Hthen].
  assert (H : fst (perform_operation Multiplication 2 3 w) = Ok 6%float)
    by (apply Hback; repeat split).
  split; [exact H | apply (Hthen H)].
Defined.

(** X10.  A call of [perform_operation] that raises, for whatever reason,
    leaves the file as it was, and the record it was called with stays
    appended to the history: the append is not undone. *)
Theorem perform_operation_failure :
  forall w op a b e,
    fst (perform_operation op a b w) = Raise e ->
    durable (snd (perform_operation op a b w)) = durable w
    /\ _history (calc (snd (perform_operation op a b w)))
       = _history (calc w) ++ [mkCalculation (Some op) a b]
    /\ _observers (calc (snd (perform_operation op a b w)))
       = _observers (calc w).
Proof.
  intros w op a b e H.
  split; [| split; [apply perform_operation_history |]].
  - revert H.
    unfold perform_operation, bind, history_append, notify_observers, lift.
    set (c := mkCalculation (Some op) a b).
    set (w1 := set_history (_history (calc w) ++ [c]) w).
    change (_observers (calc w1)) with (_observers (calc w)).
    destruct (notify_each_frame (_observers (calc w)) c w1) as (_ & Hd & _).
    destruct (notify_each (_observers (calc w)) c w1) as [[u | e1] w2];
      simpl in Hd; [| intros _; exact Hd].
    unfold Calculation_str.
    destruct (recompute c) as [r | e2] eqn:Hr; simpl; [| intros _; exact Hd].
    generalize (save_history_outcome w2).
    destruct (save_history w2) as [[u' | e3] w3]; simpl.
    + change (recompute c) with (calculate op a b) in Hr. rewrite Hr.
      intros _ H. discriminate H.
    + intros [_ ->] _. exact Hd.
  - revert H.
    unfold perform_operation, bind, history_append, notify_observers, lift.
    set (c := mkCalculation (Some op) a b).
    set (w1 := set_history (_history (calc w) ++ [c]) w).
    change (_observers (calc w1)) with (_observers (calc w)).
    destruct (notify_each_frame (_observers (calc w)) c w1) as [Hc _].
    destruct (notify_each (_observers (calc w)) c w1) as [[u | e1] w2];
      simpl in Hc; [| intros _; simpl; rewrite Hc; reflexivity].
    destruct (Calculation_str c) as [t | e2]; simpl;
      [| intros _; rewrite Hc; reflexivity].
    destruct (save_history_frame w2) as [Hs _].
    destruct (save_history w2) as [[u' | e3] w3]; simpl in *;
      intros _; rewrite Hs, Hc; reflexivity.
Qed.

Lemma perform_operation_failure_witness :
  let w := snd (add_observer (failing_observer 1) fresh) in
  durable (snd (perform_operation Addition 1 2 w)) = None
  /\ _history (calc (snd (perform_operation Addition 1 2 w)))
     = [mkCalculation (Some Addition) 1 2].
Proof.
  intros w.
  destruct (perform_operation_failure w Addition 1 2
              (ValueError "observer failed") eq_refl) as (Hd & Hh & _).
  split; [exact Hd | exact Hh].
Defined.

(** X11.  With any number of subscribers: when the operation computes, the
    observers before the first one that raises are each called once, in
    order, then that one is called, nobody after it is, and the call of
    [perform_operation] ends with that observer's exception. *)
Theorem perform_operation_first_failure :
  forall w before o after op a b r e,
    _observers (calc w) = before ++ o :: after ->
    calculate op a b = Ok r ->
    forallb (accepts (mkCalculation (Some op) a b)) before = true ->
    update o (mkCalculation (Some op) a b) = Raise e ->
    fst (perform_operation op a b w) = Raise e
    /\ notifications (snd (perform_operation op a b w))
       = notifications w
           ++ round (before ++ [o]) (mkCalculation (Some op) a b).
Proof.
  intros w before o after op a b r e Hobs Hcalc Hacc Ho.
  destruct (perform_operation_notifications op a b w) as [Hn He].
  cbv zeta in Hn, He. rewrite Hobs in Hn, He.
  destruct (notify_each_first_failure before o after
              (mkCalculation (Some op) a b)
              (set_history
                 (_history (calc w) ++ [mkCalculation (Some op) a b]) w)
              r e Hcalc Hacc Ho) as [H1 H2].
  split; [apply He; exact H1 | rewrite Hn; exact H2].
Qed.

Lemma perform_operation_first_failure_witness :
  let c := mkCalculation (Some Addition) 1 2 in
  let w := snd (add_observer (HistoryObserver 2)
                  (snd (add_observer (failing_observer 1) fresh))) in
  fst (perform_operation Addition 1 2 w)
  = Raise (ValueError "observer failed")
  /\ notifications (snd (perform_operation Addition 1 2 w))
     = [mkNotification 0 c; mkNotification 1 c].
Proof.
  intros c w.
  apply (perform_operation_first_failure w
           [HistoryObserver 0] (failing_observer 1) [HistoryObserver 2]
           Addition 1 2 3 (ValueError "observer failed"));
    reflexivity.
Defined.

(** X12.  [add_observer] subscribes at the end of the list and changes
    nothing else: in an operation performed afterwards the earlier
    subscribers are called first, in their old order, and the new one last.
    An observer subscribed twice is called twice.  The operation returns its
    value when the file can be written. *)
Theorem add_observer_then_perform :
  forall w o op a b r,
    calculate op a b = Ok r ->
    forallb recomputes (_history (calc w)) = true ->
    forallb (accepts (mkCalculation (Some op) a b)) (_observers (calc w))
    = true ->
    accepts (mkCalculation (Some op) a b) o = true ->
    let w1 := snd (add_observer o w) in
    _history (calc w1) = _history (calc w)
    /\ durable w1 = durable w
    /\ (writable w = true -> fst (perform_operation op a b w1) = Ok r)
    /\ notifications (snd (perform_operation op a b w1))
       = notifications w
           ++ round (_observers (calc w)) (mkCalculation (Some op) a b)
           ++ [mkNotification (observer_id o) (mkCalculation (Some op) a b)].
Proof.
  intros w o op a b r Hcalc Hh Hacc Ho w1.
  assert (Hacc1 : forallb (accepts (mkCalculation (Some op) a b))
                    (_observers (calc w1)) = true).
  { subst w1. simpl. rewrite forallb_app, Hacc. simpl. rewrite Ho.
    reflexivity. }
  split; [reflexivity |]. split; [reflexivity |]. split.
  - intros Hw.
    destruct (perform_operation_succeeds w1 op a b r Hcalc Hh Hacc1 Hw)
      as (rows & _ & Hrun).
    rewrite Hrun. reflexivity.
  - destruct (perform_operation_notifications op a b w1) as [Hn _].
    cbv zeta in Hn. rewrite Hn.
    destruct (notify_each_accepted (_observers (calc w1))
                (mkCalculation (Some op) a b)
                (set_history
                   (_history (calc w1) ++ [mkCalculation (Some op) a b]) w1)
                r Hcalc Hacc1) as [_ Hround].
    rewrite Hround. subst w1. simpl. unfold round. rewrite map_app.
    reflexivity.
Qed.

Lemma add_observer_then_perform_witness :
  let c := mkCalculation (Some Addition) 1 2 in
  notifications
    (snd (perform_operation Addition 1 2
            (snd (add_observer (HistoryObserver 0) fresh))))
  = [mkNotification 0 c; mkNotification 0 c].
Proof.
  intros c.
  destruct (add_observer_then_perform fresh (HistoryObserver 0)
              Addition 1 2 3 eq_refl eq_refl eq_refl eq_refl)
    as (_ & _ & _ & H).
  exact H.
Defined.

(* ------------------------------------------------------------------ *)
(** ** More of the REPL *)

(** X13.  In a sound calculator (the stored records recompute, the
    observers do not raise on such records, the file can be written),
    "divide" with a divisor that does not compare equal to zero returns the
    float quotient, appends exactly the record of that division and leaves
    the calculator sound. *)
Theorem perform_divide :
  forall w a b,
    sound w ->
    (b =? 0)%float = false ->
    returns_and_appends "divide" Division (a / b)%float a b w.
Proof.
  intros w a b Hw Hb. apply returns_and_appends_intro.
  - reflexivity.
  - unfold calculate, validate_inputs. simpl. rewrite Hb. reflexivity.
  - exact Hw.
Qed.

Lemma perform_divide_witness :
  let w := snd (perform "add" 1 1 fresh) in
  fst (perform "divide" 6 3 w) = Continue (ResultIs 2)
  /\ _history (calc (snd (perform "divide" 6 3 w)))
     = [mkCalculation (Some Addition) 1 1; mkCalculation (Some Division) 6 3].
Proof.
  intros w.
  destruct (add_subtract_multiply_when_sound fresh 1 1 fresh_sound)
    as ((_ & _ & _ & Hsound) & _).
  destruct (perform_divide w 6 3 Hsound eq_refl) as (H & Hh & _).
  split; [exact H | exact Hh].
Defined.

Lemma mapM_Calculation_str history :
  if forallb recomputes history
  then exists items,
      mapM Calculation_str history = Ok items
      /\ Forall2 listed_as history items
  else exists e, mapM Calculation_str history = Raise e.
Proof.
  induction history as [| c rest IH]; simpl.
  - exists []. split; [reflexivity | constructor].
  - unfold recomputes at 1. unfold Calculation_str at 1 3.
    destruct (recompute c) as [r | e] eqn:Hr; simpl.
    + destruct (forallb recomputes rest).
      * destruct IH as (items & Hitems & Hall). rewrite Hitems. simpl.
        eexists. split; [reflexivity |].
        constructor; [| exact Hall]. repeat split. exact Hr.
      * destruct IH as (e & He). rewrite He. simpl. exists e. reflexivity.
    + exists e. reflexivity.
Qed.

Lemma load_history_state w : snd (load_history w) = w.
Proof.
  unfold load_history. destruct (durable w) as [file |]; [| reflexivity].
  destruct (df <- read_csv file ;; mapM row_calculation df)%result;
    reflexivity.
Qed.

Lemma list_changes_nothing w : snd (repl_step List w) = w.
Proof.
  unfold repl_step, unguarded, lift.
  destruct (_history (calc w)) as [| c rest]; [reflexivity |].
  destruct (mapM Calculation_str (c :: rest)); reflexivity.
Qed.

Lemma list_prints_when_sound w :
  forallb recomputes (_history (calc w)) = true ->
  exists out, fst (repl_step List w) = Continue out.
Proof.
  intros Hh. unfold repl_step, unguarded, lift.
  destruct (_history (calc w)) as [| c rest]; [eexists; reflexivity |].
  pose proof (mapM_Calculation_str (c :: rest)) as H. rewrite Hh in H.
  destruct H as (items & Hitems & _). rewrite Hitems.
  eexists. reflexivity.
Qed.

(** X14.  The [list] command changes nothing.  It reports an empty history
    as such; otherwise, when every stored record recomputes, it prints one
    line per record, in order, with the record's operands and its result
    computed at that moment; when some record does not recompute, the
    exception escapes and ends the process. *)
Theorem list_command :
  forall w,
    snd (repl_step List w) = w
    /\ match _history (calc w) with
       | [] => fst (repl_step List w) = Continue NoCalculations
       | _ :: _ =>
           if forallb recomputes (_history (calc w))
           then exists items,
               fst (repl_step List w) = Continue (Items items)
               /\ Forall2 listed_as (_history (calc w)) items
           else exists e, fst (repl_step List w) = Uncaught e
       end.
Proof.
  intros w. unfold repl_step, unguarded, lift.
  destruct (_history (calc w)) as [| c rest] eqn:Hh.
  - split; reflexivity.
  - pose proof (mapM_Calculation_str (c :: rest)) as H.
    destruct (forallb recomputes (c :: rest)).
    + destruct H as (items & Hitems & Hall). rewrite Hitems. split.
      * reflexivity.
      * exists items. split; [reflexivity | exact Hall].
    + destruct H as (e & He). rewrite He. split.
      * reflexivity.
      * exists e. reflexivity.
Qed.

Lemma perform_operation_calc op a b w :
  calc (snd (perform_operation op a b w))
  = calc (set_history
            (_history (calc w) ++ [mkCalculation (Some op) a b]) w).
Proof.
  unfold perform_operation, bind, history_append, notify_observers, lift.
  set (c := mkCalculation (Some op) a b).
  set (w1 := set_history (_history (calc w) ++ [c]) w).
  change (_observers (calc w1)) with (_observers (calc w)).
  destruct (notify_each_frame (_observers (calc w)) c w1) as [Hcalc _].
  destruct (notify_each (_observers (calc w)) c w1) as [[u | e] w2];
    simpl in *; [| exact Hcalc].
  destruct (Calculation_str c) as [t | e]; simpl; [| exact Hcalc].
  destruct (save_history_frame w2) as [Hs _].
  destruct (save_history w2) as [[u' | e] w3]; simpl in *;
    rewrite Hs; exact Hcalc.
Qed.

(** X15.  No command of the REPL changes the subscriber list or the path of
    the history file, and no command but [clear] removes or alters a stored
    record: the history after a turn is the history before it with at most
    one record added at the end. *)
Theorem repl_step_keeps_the_calculator :
  forall user_input w,
    _observers (calc (snd (repl_step user_input w))) = _observers (calc w)
    /\ history_file (calc (snd (repl_step user_input w)))
       = history_file (calc w)
    /\ match user_input with
       | Clear => _history (calc (snd (repl_step user_input w))) = []
       | _ =>
           exists added,
             _history (calc (snd (repl_step user_input w)))
             = _history (calc w) ++ added
             /\ length added <= 1
       end.
Proof.
  intros user_input w.
  assert (Hsame : forall w', calc w' = calc w ->
            _observers (calc w') = _observers (calc w)
            /\ history_file (calc w') = history_file (calc w)
            /\ exists added,
                 _history (calc w') = _history (calc w) ++ added
                 /\ length added <= 1).
  { intros w' ->. repeat split. exists []. rewrite app_nil_r.
    split; [reflexivity | simpl; lia]. }
  destruct user_input as [| | | | | | operation_str num1 num2 |].
  - apply Hsame. reflexivity.
  - apply Hsame. reflexivity.
  - apply Hsame. rewrite list_changes_nothing. reflexivity.
  - cbn [repl_step]. unfold unguarded, bind, history_clear, save_history.
    cbn [calc set_history _history mapM writable].
    destruct (writable w); repeat split.
  - apply Hsame. cbn [repl_step]. unfold unguarded, save_history_manually.
    destruct (save_history_frame w) as [Hc _].
    destruct (save_history w) as [[u | e] w']; exact Hc.
  - apply Hsame. cbn [repl_step].
    unfold unguarded, load_history_manually.
    pose proof (load_history_state w) as Hw.
    destruct (load_history w) as [[history | e] w']; simpl in Hw; subst w';
      reflexivity.
  - cbn [repl_step]. unfold perform.
    destruct (create_operation operation_str) as [op |];
      [| apply Hsame; reflexivity].
    pose proof (perform_operation_calc op num1 num2 w) as Hc.
    assert (Hgoal : forall w', calc w'
                     = calc (set_history
                               (_history (calc w)
                                  ++ [mkCalculation (Some op) num1 num2]) w)
                     -> _observers (calc w') = _observers (calc w)
                        /\ history_file (calc w') = history_file (calc w)
                        /\ exists added,
                             _history (calc w') = _history (calc w) ++ added
                             /\ length added <= 1).
    { intros w' ->. repeat split.
      exists [mkCalculation (Some op) num1 num2].
      split; [reflexivity | simpl; lia]. }
    destruct (perform_operation op num1 num2 w) as [[r | e] w']; simpl in Hc.
    + apply Hgoal. exact Hc.
    + destruct (is_ValueError e); apply Hgoal; exact Hc.
  - apply Hsame. reflexivity.
Qed.

Lemma history_observers_accept w c r :
  history_observers w ->
  recompute c = Ok r ->
  forallb (accepts c) (_observers (calc w)) = true.
Proof.
  intros Hobs Hr. apply forallb_forall. intros o Hin.
  unfold history_observers in Hobs. rewrite Forall_forall in Hobs.
  unfold accepts. rewrite (Hobs o Hin c).
  destruct (Calculation_str_Ok c r Hr) as [t Ht].
  cbn [update HistoryObserver]. rewrite Ht. reflexivity.
Qed.

(** With the program's own observers, an operation that does not compute
    ends in the exception of its computation. *)
Lemma perform_operation_uncomputable w op a b e :
  history_observers w ->
  calculate op a b = Raise e ->
  fst (perform_operation op a b w) = Raise e.
Proof.
  intros Hobs Hcalc.
  assert (Hstr : Calculation_str (mkCalculation (Some op) a b) = Raise e)
    by (apply Calculation_str_Raise; exact Hcalc).
  unfold history_observers in Hobs.
  unfold perform_operation, bind, history_append, notify_observers, lift.
  cbn [calc set_history _observers].
  destruct (_observers (calc w)) as [| o rest]; cbn [notify_each].
  - unfold ret. rewrite Hstr. reflexivity.
  - apply Forall_inv in Hobs. unfold bind. rewrite Hobs.
    cbn [update HistoryObserver]. rewrite Hstr. reflexivity.
Qed.

(** X16.  A session whose stored records all recompute, whose observers
    are the program's own and whose file can be opened for writing survives
    every command except [load_history]: no exception escapes the loop.
    The stored records still recompute after the turn unless the turn
    reported invalid input. *)
Theorem repl_step_no_uncaught_exception :
  forall user_input w,
    forallb recomputes (_history (calc w)) = true ->
    history_observers w ->
    writable w = true ->
    user_input <> LoadHistory ->
    (exists out,
        fst (repl_step user_input w) = Continue out
        \/ fst (repl_step user_input w) = Break out)
    /\ (fst (repl_step user_input w) = Continue InvalidInput
        \/ forallb recomputes
             (_history (calc (snd (repl_step user_input w)))) = true).
Proof.
  intros user_input w Hh Hobs Hwrite Hnot.
  destruct user_input as [| | | | | | operation_str num1 num2 |];
    cbn [repl_step].
  - split; [eexists; left; reflexivity | right; exact Hh].
  - split; [eexists; right; reflexivity | right; exact Hh].
  - split.
    + destruct (list_prints_when_sound w Hh) as [out Hout].
      exists out. left. exact Hout.
    + right. pose proof (list_changes_nothing w) as Hw. cbn [repl_step] in Hw.
      rewrite Hw. exact Hh.
  - unfold unguarded, bind, history_clear, save_history.
    cbn [calc set_history _history mapM writable]. rewrite Hwrite.
    split; [eexists; left; reflexivity | right; reflexivity].
  - unfold unguarded, save_history_manually.
    generalize (save_history_outcome w).
    destruct (save_history w) as [[u | e] w']; cbn [fst snd].
    + intros (_ & _ & Hc). rewrite Hc.
      split; [eexists; left; reflexivity | right; exact Hh].
    + intros [[Hfalse | Hfalse] _].
      * rewrite Hh in Hfalse. discriminate Hfalse.
      * rewrite Hwrite in Hfalse. discriminate Hfalse.
  - contradiction Hnot. reflexivity.
  - unfold perform.
    destruct (create_operation operation_str) as [op |];
      [| split; [eexists; left; reflexivity | right; exact Hh]].
    destruct (calculate op num1 num2) as [r | e] eqn:Hcalc.
    + pose proof (history_observers_accept w
                    (mkCalculation (Some op) num1 num2) r Hobs Hcalc)
        as Hacc.
      destruct (perform_operation_succeeds w op num1 num2 r Hcalc Hh Hacc
                  Hwrite) as (rows & _ & Hrun).
      rewrite Hrun. cbn [fst snd calc _history].
      split; [eexists; left; reflexivity | right].
      rewrite forallb_app, Hh. simpl. unfold recomputes, recompute. simpl.
      rewrite Hcalc. reflexivity.
    + pose proof (perform_operation_uncomputable w op num1 num2 e Hobs Hcalc)
        as Hraise.
      apply calculate_Raise_inv in Hcalc as ->.
      destruct (perform_operation op num1 num2 w) as [res w'].
      simpl in Hraise. subst res. simpl.
      split; [eexists; left; reflexivity | left; reflexivity].
  - split; [eexists; left; reflexivity | left; reflexivity].
Qed.

Lemma repl_step_no_uncaught_exception_witness :
  let w := snd (perform "add" 1 1 fresh) in
  (exists out,
      fst (repl_step (Operate "divide" 1 0) w) = Continue out
      \/ fst (repl_step (Operate "divide" 1 0) w) = Break out)
  /\ fst (repl_step (Operate "divide" 1 0) w) = Continue InvalidInput.
Proof.
  intros w.
  destruct (repl_step_no_uncaught_exception (Operate "divide" 1 0) w
              eq_refl
              (Forall_cons _ (fun c => eq_refl) (Forall_nil _))
              eq_refl
              ltac:(discriminate)) as [H _].
  split; [exact H | reflexivity].
Defined.

(** On a file that cannot be opened for writing the error of the save is
    not a [ValueError]: it escapes the loop. *)
Example add_on_a_read_only_file :
  fst (perform "add" 2 3 (set_writable false fresh))
  = Uncaught (OSError "calculator_history.csv").
Proof. reflexivity. Qed.

(* ------------------------------------------------------------------ *)
(** ** Starting a session *)

(** X17.  A session that starts does so without writing the file and
    without notifying anybody: its history is exactly what loading the file
    returns, and the one subscriber is the program's [HistoryObserver]. *)
Theorem startup_loads_the_history :
  forall path file can_write w,
    startup path file can_write = Ok w ->
    durable w = file
    /\ history_file (calc w) = path
    /\ _observers (calc w) = [HistoryObserver 0]
    /\ notifications w = []
    /\ load_history w = (Ok (_history (calc w)), w).
Proof.
  intros path file can_write w. unfold startup, init, load_history.
  cbn [durable]. destruct file as [file |].
  - destruct (df <- read_csv file ;; mapM row_calculation df)%result
      as [history | e] eqn:Hread; [| discriminate].
    intros H. injection H as <-. cbn. rewrite Hread. repeat split.
  - intros H. injection H as <-. repeat split.
Qed.

Lemma startup_loads_the_history_witness :
  exists w,
    startup "calculator_history.csv" (Some (Columns [mkRow "add" 1 2 3]))
      true
    = Ok w
    /\ load_history w = (Ok [mkCalculation (Some Addition) 1 2], w).
Proof.
  eexists. split; [reflexivity |].
  destruct (startup_loads_the_history "calculator_history.csv"
              (Some (Columns [mkRow "add" 1 2 3])) true _ eq_refl)
    as (_ & _ & _ & _ & H).
  exact H.
Defined.



